(** * weather-server: the request handlers of [src/index.ts] and the type
    guard of [src/types.ts], embedded and checked against the specification.

    The server is a stateless adapter.  Each handler is an [async] function
    that may issue one HTTP GET through axios and then reshapes the decoded
    body.  The embedding keeps

    - JavaScript numbers as binary64 floats ([PrimFloat.float]), so that
      [days || 3], [Math.min(_, 5)] and [days * 8] are the operations the
      engine performs;
    - untyped values ([any]) as JSON values, with [None] for [undefined];
      objects are finite maps from property names to values;
    - the effects of a handler (the GET requests it issues, the exception it
      may throw) as a small monad over the log of issued requests;
    - the outside world (the provider's answers and the wall clock) as a
      record the handlers read from. *)

From Stdlib Require Import Floats Bool List String Ascii Arith ZArith Lia.
From stdpp Require Import gmap strings.
From Equations Require Import Equations.

Local Open Scope string_scope.

(** ** JavaScript values and the primitives the handlers use *)

Module JS.

(** A value produced by [JSON.parse].  The arguments of a tool call reach the
    handler through JSON-RPC, so these are the defined values it can see. *)
#[local] Set Warnings "-register-all".
Inductive Json : Type :=
| JNull
| JBool (b : bool)
| JNum (n : float)
| JStr (s : string)
| JArr (items : list Json)
| JObj (props : gmap string Json).

(** A value of type [any]: [None] is [undefined]. *)
Abbreviation Any := (option Json).

(** [typeof v]. *)
Definition typeof (v : Any) : string :=
  match v with
  | None => "undefined"
  | Some JNull => "object"
  | Some (JBool _) => "boolean"
  | Some (JNum _) => "number"
  | Some (JStr _) => "string"
  | Some (JArr _) => "object"
  | Some (JObj _) => "object"
  end.

(** [v === null]. *)
Definition is_null (v : Any) : bool :=
  match v with Some JNull => true | _ => false end.

(** [v === undefined]. *)
Definition is_undefined (v : Any) : bool :=
  match v with None => true | Some _ => false end.

(** [v.k] for one of the two names the type guard reads, [city] and [days].
    An object yields the property or [undefined]; an array parsed from JSON
    owns indices and [length] only, and a primitive has neither name. *)
Definition get (v : Any) (k : string) : Any :=
  match v with
  | Some (JObj props) => props !! k
  | _ => None
  end.

(** [k in v], for the same names, on a non-null value of type object. *)
Definition has (k : string) (v : Any) : bool :=
  match v with
  | Some (JObj props) => bool_decide (is_Some (props !! k))
  | _ => false
  end.

(** [ToBoolean] on a number: [+0], [-0] and [NaN] are falsy. *)
Definition truthy (x : float) : bool :=
  negb (PrimFloat.is_zero x || PrimFloat.is_nan x).

(** [v || d] where [v] is a number or [undefined] and [d] a number. *)
Definition or_else (v : option float) (d : float) : float :=
  match v with
  | Some x => if truthy x then x else d
  | None => d
  end.

(** [Math.min(a, b)]: [NaN] if either is [NaN], and [-0] below [+0]. *)
Definition Math_min (a b : float) : float :=
  if PrimFloat.is_nan a || PrimFloat.is_nan b then PrimFloat.nan
  else if PrimFloat.ltb a b then a
  else if PrimFloat.ltb b a then b
  else if PrimFloat.get_sign a then a
  else b.

(** [s.split(sep)[0]] for a one-character separator: the characters before
    the first occurrence of [sep], the whole string when there is none. *)
Fixpoint split_head (sep : ascii) (s : string) : string :=
  match s with
  | EmptyString => EmptyString
  | String c rest =>
      if Ascii.eqb c sep then EmptyString else String c (split_head sep rest)
  end.

(** [a ?? b]. *)
Definition nullish {A : Type} (a : option A) (b : A) : A :=
  match a with Some x => x | None => b end.

End JS.

Import JS.

(** ** [src/types.ts] *)

Module OpenWeatherResponse.
Record Main : Type := { temp : float; humidity : float }.
Record Weather : Type := { description : string }.
Record Wind : Type := { speed : float }.
Record t : Type :=
  { main : Main; weather : list Weather; wind : Wind; dt_txt : option string }.
End OpenWeatherResponse.

Module WeatherData.
Record t : Type :=
  { temperature : float;
    conditions : string;
    humidity : float;
    wind_speed : float;
    timestamp : string }.
End WeatherData.

Module ForecastDay.
Record t : Type :=
  { date : string; temperature : float; conditions : string }.
End ForecastDay.

(** The type guard. *)
Definition isValidForecastArgs (args : Any) : bool :=
  String.eqb (typeof args) "object"
  && negb (is_null args)
  && has "city" args
  && String.eqb (typeof (get args "city")) "string"
  && (is_undefined (get args "days")
      || String.eqb (typeof (get args "days")) "number").

(** What the guard narrows [args] to: [GetForecastArgs], with [city] a string
    and [days] a number or absent. *)
Module GetForecastArgs.
Definition city (args : Any) : string :=
  match get args "city" with Some (JStr s) => s | _ => "" end.
Definition days (args : Any) : option float :=
  match get args "days" with Some (JNum n) => Some n | _ => None end.
End GetForecastArgs.

(** ** Protocol errors, exceptions and the effect monad *)

(** The members of the SDK's [ErrorCode] that the handlers use. *)
Inductive ErrorCode : Type :=
| InvalidRequest
| MethodNotFound
| InvalidParams
| InternalError.

(** What axios attaches to a rejected request.  [response] is absent when
    the failure happened before any answer arrived.  The decoded body
    [response.data] may be [null] or [undefined]; of any other body the
    handlers read the [message] property only, and only to interpolate it, so
    a body is kept as that property's string conversion, [None] when the
    property is absent or [null]. *)
Module AxiosError.
Inductive Data : Type :=
| DataNull
| DataUndefined
| Body (message : option string).
Record Response : Type := { data : Data }.
Record t : Type := { response : option Response; message : string }.
End AxiosError.

(** The values a handler can throw. *)
Inductive Exception : Type :=
| McpError (code : ErrorCode) (message : string)
| AxiosFailure (error : AxiosError.t)
| TypeError (message : string)
| OtherError (message : string).

(** [axios.isAxiosError(error)]. *)
Definition isAxiosError (e : Exception) : bool :=
  match e with AxiosFailure _ => true | _ => false end.

(** The query of one GET: the endpoint and the per-request parameters.  The
    instance-wide [appid] and [units=metric] are the same on every request. *)
Record HttpRequest : Type :=
  { url : string; q : string; cnt : option float }.

(** How an awaited promise settles. *)
Inductive Outcome (A : Type) : Type :=
| Returned (value : A)
| Thrown (error : Exception).
Arguments Returned {A} value.
Arguments Thrown {A} error.

(** [error.response?.data.message ?? error.message].  The optional chain
    stops at an absent [response]; reading [message] off a [data] that is
    [null] or [undefined] throws. *)
Definition provider_message (error : AxiosError.t) : Outcome string :=
  match AxiosError.response error with
  | None => Returned (AxiosError.message error)
  | Some r =>
      match AxiosError.data r with
      | AxiosError.DataNull =>
          Thrown (TypeError "Cannot read properties of null (reading 'message')")
      | AxiosError.DataUndefined =>
          Thrown (TypeError "Cannot read properties of undefined (reading 'message')")
      | AxiosError.Body m => Returned (nullish m (AxiosError.message error))
      end
  end.

(** A handler run: from the requests issued so far to the outcome and the
    requests issued by the end. *)
Definition Handler (A : Type) : Type :=
  list HttpRequest -> Outcome A * list HttpRequest.

Definition ret {A : Type} (a : A) : Handler A :=
  fun log => (Returned a, log).

Definition throw {A : Type} (e : Exception) : Handler A :=
  fun log => (Thrown e, log).

Definition bind {A B : Type} (m : Handler A) (k : A -> Handler B) : Handler B :=
  fun log =>
    match m log with
    | (Returned a, log') => k a log'
    | (Thrown e, log') => (Thrown e, log')
    end.

(** [try { m } catch (error) { h error }]. *)
Definition try_catch {A : Type} (m : Handler A) (h : Exception -> Handler A)
  : Handler A :=
  fun log =>
    match m log with
    | (Returned a, log') => (Returned a, log')
    | (Thrown e, log') => h e log'
    end.

(** A synchronous computation that may throw, run inside a handler. *)
Definition lift {A : Type} (o : Outcome A) : Handler A :=
  fun log => (o, log).

Notation "x <- m ;; k" := (bind m (fun x => k))
  (at level 100, m at next level, right associativity).

(** The world outside the process: the provider's answer to each request, at
    the type the call site gives to [axios.get], and the reading of the wall
    clock during the request, as [new Date().toISOString()] prints it. *)
Record World : Type :=
  { provider_current : HttpRequest -> Outcome OpenWeatherResponse.t;
    provider_forecast : HttpRequest -> Outcome (list OpenWeatherResponse.t);
    now : string }.

(** [await this.axiosInstance.get(url, { params })]: the request is issued,
    then the promise settles as the provider decides. *)
Definition axios_get {A : Type} (provider : HttpRequest -> Outcome A)
    (req : HttpRequest) : Handler A :=
  fun log => (provider req, (log ++ [req])%list).

(** ** [src/index.ts] *)

Module API_CONFIG.
Definition BASE_URL : string := "http://api.openweathermap.org/data/2.5".
Definition DEFAULT_CITY : string := "San Francisco".
Module ENDPOINTS.
Definition CURRENT : string := "weather".
Definition FORECAST : string := "forecast".
End ENDPOINTS.
End API_CONFIG.

(** The text of a content item: a string built by the handler, or the
    serialization [JSON.stringify(value, null, 2)] of a normalized record,
    kept as the record it prints. *)
Inductive Text : Type :=
| Lit (s : string)
| JSON_stringify_WeatherData (weatherData : WeatherData.t)
| JSON_stringify_ForecastDays (forecasts : list ForecastDay.t).

Module Resource.
Record t : Type :=
  { uri : string; name : string; mimeType : string; description : string }.
End Resource.

Module ResourceContents.
Record t : Type := { uri : string; mimeType : string; text : Text }.
End ResourceContents.

Record ReadResourceResult : Type :=
  { contents : list ResourceContents.t }.

Module TextContent.
Record t : Type := { type : string; text : Text }.
End TextContent.

(** [isError] is [None] when the handler leaves the field out. *)
Record CallToolResult : Type :=
  { content : list TextContent.t; isError : option bool }.

Module Tool.
Record t : Type :=
  { name : string; description : string; inputSchema : Json }.
End Tool.

(** The handler of [ListResourcesRequestSchema]. *)
Definition handle_ListResources : list Resource.t :=
  [ {| Resource.uri := "weather://" +:+ API_CONFIG.DEFAULT_CITY +:+ "/current";
       Resource.name := "Current weather in " +:+ API_CONFIG.DEFAULT_CITY;
       Resource.mimeType := "application/json";
       Resource.description :=
         "Real-time weather data including temperature, conditions, humidity, and wind speed" |} ].

(** The object literal assigned to [weatherData].  Reading
    [weather[0].description] throws when the provider's list is empty. *)
Definition weatherData_of (W : World) (data : OpenWeatherResponse.t)
  : Outcome WeatherData.t :=
  match OpenWeatherResponse.weather data with
  | w0 :: _ =>
      Returned
        {| WeatherData.temperature :=
             OpenWeatherResponse.temp (OpenWeatherResponse.main data);
           WeatherData.conditions := OpenWeatherResponse.description w0;
           WeatherData.humidity :=
             OpenWeatherResponse.humidity (OpenWeatherResponse.main data);
           WeatherData.wind_speed :=
             OpenWeatherResponse.speed (OpenWeatherResponse.wind data);
           WeatherData.timestamp := now W |}
  | [] => Thrown (TypeError "Cannot read properties of undefined (reading 'description')")
  end.

(** The handler of [ReadResourceRequestSchema], on [request.params.uri]. *)
Definition handle_ReadResource (W : World) (uri : string)
  : Handler ReadResourceResult :=
  let city := API_CONFIG.DEFAULT_CITY in
  if negb (String.eqb uri ("weather://" +:+ city +:+ "/current")) then
    throw (McpError InvalidRequest ("Unknown resource: " +:+ uri))
  else
    try_catch
      (response <- axios_get (provider_current W)
                     {| url := API_CONFIG.ENDPOINTS.CURRENT;
                        q := city; cnt := None |} ;;
       weatherData <- lift (weatherData_of W response) ;;
       ret {| contents :=
                [ {| ResourceContents.uri := uri;
                     ResourceContents.mimeType := "application/json";
                     ResourceContents.text :=
                       JSON_stringify_WeatherData weatherData |} ] |})
      (fun error =>
         match error with
         | AxiosFailure e =>
             message <- lift (provider_message e) ;;
             throw (McpError InternalError ("Weather API error: " +:+ message))
         | _ => throw error
         end).

(** The handler of [ListToolsRequestSchema]. *)
Definition handle_ListTools : list Tool.t :=
  [ {| Tool.name := "get_forecast";
       Tool.description := "Get weather forecast for a city";
       Tool.inputSchema :=
         JObj {[ "type" := JStr "object";
                 "properties" :=
                   JObj {[ "city" :=
                             JObj {[ "type" := JStr "string";
                                     "description" := JStr "City name" ]};
                           "days" :=
                             JObj {[ "type" := JStr "number";
                                     "description" := JStr "Number of days (1-5)";
                                     "minimum" := JNum 1;
                                     "maximum" := JNum 5 ]} ]};
                 "required" := JArr [ JStr "city" ] ]} |} ].

(** The object pushed for [dayData = response.data.list[i]]. *)
Definition forecastDay_of (W : World) (dayData : OpenWeatherResponse.t)
  : Outcome ForecastDay.t :=
  let date :=
    nullish (option_map (split_head " ") (OpenWeatherResponse.dt_txt dayData))
            (split_head "T" (now W)) in
  match OpenWeatherResponse.weather dayData with
  | w0 :: _ =>
      Returned
        {| ForecastDay.date := date;
           ForecastDay.temperature :=
             OpenWeatherResponse.temp (OpenWeatherResponse.main dayData);
           ForecastDay.conditions := OpenWeatherResponse.description w0 |}
  | [] => Thrown (TypeError "Cannot read properties of undefined (reading 'description')")
  end.

(** [for (let i = ...; i < list.length; i += 8) { ... }] over
    [data_list = response.data.list], entered with the current [i] and the
    [forecasts] pushed so far. *)
Equations? forecast_loop (W : World) (data_list : list OpenWeatherResponse.t)
    (i : nat) (forecasts : list ForecastDay.t)
  : Outcome (list ForecastDay.t) by wf (length data_list - i) lt :=
  forecast_loop W data_list i forecasts with lt_dec i (length data_list) => {
    | right _ => Returned forecasts;
    | left _ with data_list !! i => {
        | None => Thrown (TypeError "Cannot read properties of undefined (reading 'dt_txt')");
        | Some dayData with forecastDay_of W dayData => {
            | Thrown e => Thrown e;
            | Returned day =>
                forecast_loop W data_list (i + 8) (forecasts ++ [day])%list } } }.
Proof. lia. Qed.

(** The day count sent to the provider. *)
Definition days_of (args : Any) : float :=
  Math_min (or_else (GetForecastArgs.days args) 3) 5.

(** The handler of [CallToolRequestSchema], on [request.params.name] and
    [request.params.arguments]. *)
Definition handle_CallTool (W : World) (name : string) (args : Any)
  : Handler CallToolResult :=
  if negb (String.eqb name "get_forecast") then
    throw (McpError MethodNotFound ("Unknown tool: " +:+ name))
  else if negb (isValidForecastArgs args) then
    throw (McpError InvalidParams "Invalid forecast arguments")
  else
    let city := GetForecastArgs.city args in
    let days := days_of args in
    try_catch
      (response <- axios_get (provider_forecast W)
                     {| url := API_CONFIG.ENDPOINTS.FORECAST;
                        q := city; cnt := Some (days * 8)%float |} ;;
       forecasts <- lift (forecast_loop W response 0 []) ;;
       ret {| content :=
                [ {| TextContent.type := "text";
                     TextContent.text :=
                       JSON_stringify_ForecastDays forecasts |} ];
              isError := None |})
      (fun error =>
         match error with
         | AxiosFailure e =>
             message <- lift (provider_message e) ;;
             ret {| content :=
                      [ {| TextContent.type := "text";
                           TextContent.text :=
                             Lit ("Weather API error: " +:+ message) |} ];
                    isError := Some true |}
         | _ => throw error
         end).

(** ** Notions used in the statements *)

(** The URI that [handle_ListResources] advertises. *)
Definition advertised_uri : string :=
  "weather://" +:+ API_CONFIG.DEFAULT_CITY +:+ "/current".

(** The one GET of a resource read and the one GET of a tool call. *)
Definition current_request : HttpRequest :=
  {| url := API_CONFIG.ENDPOINTS.CURRENT;
     q := API_CONFIG.DEFAULT_CITY;
     cnt := None |}.

Definition forecast_request (args : Any) : HttpRequest :=
  {| url := API_CONFIG.ENDPOINTS.FORECAST;
     q := GetForecastArgs.city args;
     cnt := Some (days_of args * 8)%float |}.

(** The two results a tool call can return. *)
Definition forecast_result (forecasts : list ForecastDay.t) : CallToolResult :=
  {| content :=
       [ {| TextContent.type := "text";
            TextContent.text := JSON_stringify_ForecastDays forecasts |} ];
     isError := None |}.

Definition error_result (message : string) : CallToolResult :=
  {| content :=
       [ {| TextContent.type := "text";
            TextContent.text := Lit ("Weather API error: " +:+ message) |} ];
     isError := Some true |}.

(** The result of a successful resource read. *)
Definition snapshot_result (uri : string) (weatherData : WeatherData.t)
  : ReadResourceResult :=
  {| contents :=
       [ {| ResourceContents.uri := uri;
            ResourceContents.mimeType := "application/json";
            ResourceContents.text := JSON_stringify_WeatherData weatherData |} ] |}.

(** The date given to a forecast entry. *)
Definition date_of (W : World) (dayData : OpenWeatherResponse.t) : string :=
  match OpenWeatherResponse.dt_txt dayData with
  | Some t => split_head " " t
  | None => split_head "T" (now W)
  end.

(** The entries at indices [skip], [skip + 8], [skip + 16], ... *)
Fixpoint every_8th_from {A : Type} (skip : nat) (l : list A) : list A :=
  match l with
  | [] => []
  | x :: rest =>
      match skip with
      | O => x :: every_8th_from 7 rest
      | S k => every_8th_from k rest
      end
  end.

Definition stride8 {A : Type} (l : list A) : list A := every_8th_from 0 l.

(** Apply [f] to each element in order, stopping at the first throw. *)
Fixpoint traverse {A B : Type} (f : A -> Outcome B) (l : list A)
  : Outcome (list B) :=
  match l with
  | [] => Returned []
  | x :: rest =>
      match f x with
      | Thrown e => Thrown e
      | Returned y =>
          match traverse f rest with
          | Thrown e => Thrown e
          | Returned ys => Returned (y :: ys)
          end
      end
  end.

(** The shape of [ForecastRequest] as the specification words it: a non-null
    structured value with a string [city] and, when [days] is present, a
    numeric [days]. *)
Definition ForecastRequestShape (args : Any) : Prop :=
  exists props c,
    args = Some (JObj props)
    /\ props !! "city" = Some (JStr c)
    /\ (props !! "days" = None \/ exists n, props !! "days" = Some (JNum n)).

(** The day count as the specification words it: [days] clamped to the
    interval from 1 to 5, and 3 when absent. *)
Definition clamp (lo hi x : float) : float :=
  if PrimFloat.ltb x lo then lo else if PrimFloat.ltb hi x then hi else x.

Definition spec_day_count (days : option float) : float :=
  match days with
  | None => 3
  | Some d => clamp 1 5 d
  end.

(** ** Sample requests and provider answers *)

Module Examples.

(** [{ city }] and [{ city, days }]. *)
Definition forecast_args (city : string) (days : option float) : Any :=
  Some (JObj match days with
             | Some d => {[ "city" := JStr city; "days" := JNum d ]}
             | None => {[ "city" := JStr city ]}
             end).

Definition entry (t : option string) (temp : float) (desc : string)
  : OpenWeatherResponse.t :=
  {| OpenWeatherResponse.main :=
       {| OpenWeatherResponse.temp := temp; OpenWeatherResponse.humidity := 60 |};
     OpenWeatherResponse.weather := [ {| OpenWeatherResponse.description := desc |} ];
     OpenWeatherResponse.wind := {| OpenWeatherResponse.speed := 2.5 |};
     OpenWeatherResponse.dt_txt := t |}.

(** A world whose provider settles every request the same way. *)
Definition world (current : Outcome OpenWeatherResponse.t)
    (forecast : Outcome (list OpenWeatherResponse.t)) : World :=
  {| provider_current := fun _ => current;
     provider_forecast := fun _ => forecast;
     now := "2024-05-06T07:08:09.000Z" |}.

(** Two days of three-hourly entries. *)
Definition two_days : list OpenWeatherResponse.t :=
  (repeat (entry (Some "2024-01-01 00:00:00") 10 "light rain") 8
   ++ repeat (entry (Some "2024-01-02 00:00:00") 12.5 "clear sky") 8)%list.

(** Two days of entries that carry no [dt_txt]. *)
Definition two_days_undated : list OpenWeatherResponse.t :=
  repeat (entry None 10 "light rain") 16.

(** An entry whose [weather] list is empty, and two days of entries whose
    second day starts with it. *)
Definition bare_entry : OpenWeatherResponse.t :=
  {| OpenWeatherResponse.main :=
       {| OpenWeatherResponse.temp := 12.5; OpenWeatherResponse.humidity := 60 |};
     OpenWeatherResponse.weather := [];
     OpenWeatherResponse.wind := {| OpenWeatherResponse.speed := 2.5 |};
     OpenWeatherResponse.dt_txt := Some "2024-01-02 00:00:00" |}.

Definition two_days_second_bare : list OpenWeatherResponse.t :=
  (repeat (entry (Some "2024-01-01 00:00:00") 10 "light rain") 8
   ++ bare_entry :: repeat (entry (Some "2024-01-02 03:00:00") 12.5 "clear sky") 7)%list.


Definition null_body : AxiosError.t :=
  {| AxiosError.response := Some {| AxiosError.data := AxiosError.DataNull |};
     AxiosError.message := "Request failed with status code 500" |}.

End Examples.
Import Examples.

(** ** Facts about binary64 comparisons

    The comparisons of [PrimFloat] are specified through [Prim2SF]; the
    lemmas below read the three constants of the handler (0, 1 and 5) through
    that specification. *)


Lemma Prim2SF_0 : Prim2SF 0 = S754_zero false.
Proof. vm_compute. reflexivity. Qed.
Lemma Prim2SF_1 : Prim2SF 1 = S754_finite false 4503599627370496 (-52).
Proof. vm_compute. reflexivity. Qed.
Lemma Prim2SF_5 : Prim2SF 5 = S754_finite false 5629499534213120 (-50).
Proof. vm_compute. reflexivity. Qed.

Ltac to_spec :=
  unfold truthy, PrimFloat.is_zero, PrimFloat.is_nan, PrimFloat.zero in *;
  rewrite ?FloatAxioms.leb_spec, ?FloatAxioms.ltb_spec, ?FloatAxioms.eqb_spec in *;
  rewrite ?Prim2SF_0, ?Prim2SF_1, ?Prim2SF_5 in *.

Ltac sf_cases d :=
  to_spec;
  destruct (Prim2SF d) as [[|]|[|]| |[|] m e];
  cbv [SFeqb SFleb SFltb SFcompare negb orb] in *;
  try discriminate; try reflexivity.

Lemma truthy_ge_1 d : (1 <=? d)%float = true -> truthy d = true.
Proof.
  intros H. sf_cases d; rewrite Z.compare_refl, Pos.compare_cont_refl; reflexivity.
Qed.

Lemma truthy_lt_0 d : (d <? 0)%float = true -> truthy d = true.
Proof.
  intros H. sf_cases d; rewrite Z.compare_refl, Pos.compare_cont_refl; reflexivity.
Qed.

Lemma truthy_not_nan d : truthy d = true -> PrimFloat.is_nan d = false.
Proof.
  unfold truthy. destruct (PrimFloat.is_zero d), (PrimFloat.is_nan d); simpl; congruence.
Qed.

Lemma truthy_get_sign d : truthy d = true -> PrimFloat.get_sign d = (d <? 0)%float.
Proof.
  unfold truthy, PrimFloat.get_sign.
  destruct (PrimFloat.is_zero d); simpl; [discriminate | reflexivity].
Qed.

Lemma cmp_cont_antisym p q :
  Pos.compare_cont Eq q p = CompOpp (Pos.compare_cont Eq p q).
Proof. exact (Pos.compare_antisym p q). Qed.

Lemma ge_5_facts d :
  (5 <=? d)%float = true ->
  truthy d = true /\ (d <? 5)%float = false /\ (d <? 0)%float = false.
Proof.
  intros H. sf_cases d.
  - auto.
  - rewrite Z.compare_refl, Pos.compare_cont_refl.
    rewrite (Z.compare_antisym (-50) e), (cmp_cont_antisym 5629499534213120 m).
    destruct (-50 ?= e)%Z; try discriminate; cbv [CompOpp]; auto.
    destruct (Pos.compare_cont Eq 5629499534213120 m); try discriminate; auto.
Qed.

Lemma eq_5 d : (d <=? 5)%float = true -> (d <? 5)%float = false -> d = 5%float.
Proof.
  intros H1 H2. apply FloatAxioms.Prim2SF_inj. rewrite Prim2SF_5.
  sf_cases d.
  destruct (e ?= -50)%Z eqn:He; try discriminate.
  destruct (Pos.compare_cont Eq m 5629499534213120) eqn:Hm; try discriminate.
  apply Z.compare_eq in He. apply (Pos.compare_eq m 5629499534213120) in Hm.
  rewrite He, Hm. reflexivity.
Qed.

(** ** The forecast loop samples every eighth entry *)

Lemma every_8th_from_drop {A} (l : list A) k :
  every_8th_from k l = stride8 (drop k l).
Proof.
  revert k. induction l as [|x l IH]; intros [|k]; simpl; try reflexivity.
  apply IH.
Qed.

Lemma every_8th_from_lookup {A} (l : list A) s k :
  every_8th_from s l !! k = l !! (s + 8 * k).
Proof.
  revert s k. induction l as [|x l IH]; intros s k.
  - rewrite !lookup_nil. reflexivity.
  - destruct s as [|s].
    + destruct k as [|k]; [reflexivity|].
      replace (0 + 8 * S k) with (S (7 + 8 * k)) by lia.
      cbn [every_8th_from]. rewrite !lookup_cons. apply IH.
    + replace (S s + 8 * k) with (S (s + 8 * k)) by lia.
      cbn [every_8th_from]. rewrite lookup_cons. apply IH.
Qed.

Lemma stride8_lookup {A} (l : list A) k : stride8 l !! k = l !! (8 * k).
Proof. apply (every_8th_from_lookup l 0 k). Qed.

Lemma stride8_length {A} (l : list A) : length (stride8 l) = (length l + 7) / 8.
Proof.
  set (n := length (stride8 l)).
  assert (Hk : forall k, k < n <-> 8 * k < length l).
  { intros k. unfold n. rewrite <- !lookup_lt_is_Some, stride8_lookup. reflexivity. }
  assert (H1 : length l <= 8 * n) by (pose proof (Hk n); lia).
  assert (H2 : n = 0 \/ 8 * (n - 1) < length l).
  { destruct n as [|m]; [left; reflexivity|right]. apply Hk. lia. }
  apply Nat.div_unique with (r := length l + 7 - 8 * n); lia.
Qed.

Lemma stride8_drop {A} (l : list A) i x :
  l !! i = Some x -> stride8 (drop i l) = x :: stride8 (drop (i + 8) l).
Proof.
  intros H. rewrite (drop_S l x i H). unfold stride8 at 1. cbn [every_8th_from].
  rewrite every_8th_from_drop, drop_drop. replace (S i + 7) with (i + 8) by lia. reflexivity.
Qed.

Lemma stride8_drop_ge {A} (l : list A) i :
  length l <= i -> stride8 (drop i l) = [].
Proof. intros H. rewrite drop_ge by exact H. reflexivity. Qed.

Lemma forecast_loop_traverse W l i acc :
  forecast_loop W l i acc =
  match traverse (forecastDay_of W) (stride8 (drop i l)) with
  | Returned fs => Returned (acc ++ fs)%list
  | Thrown e => Thrown e
  end.
Proof.
  funelim (forecast_loop W l i acc).
  - rewrite stride8_drop_ge by lia. cbn. rewrite app_nil_r. reflexivity.
  - apply lookup_ge_None in Heq. lia.
  - rewrite (stride8_drop _ _ _ Heq0). cbn [traverse]. rewrite Heq, H.
    destruct (traverse _ _); [|reflexivity].
    rewrite <- app_assoc. reflexivity.
  - rewrite (stride8_drop _ _ _ Heq0). cbn [traverse]. rewrite Heq. reflexivity.
Qed.

Lemma forecast_loop_0 W l :
  forecast_loop W l 0 [] = traverse (forecastDay_of W) (stride8 l).
Proof.
  rewrite forecast_loop_traverse, drop_0. destruct (traverse _ _); reflexivity.
Qed.

Lemma forecastDay_of_Returned W e day :
  forecastDay_of W e = Returned day <->
  exists w0 ws,
    OpenWeatherResponse.weather e = w0 :: ws
    /\ day = {| ForecastDay.date := date_of W e;
                ForecastDay.temperature :=
                  OpenWeatherResponse.temp (OpenWeatherResponse.main e);
                ForecastDay.conditions := OpenWeatherResponse.description w0 |}.
Proof.
  unfold forecastDay_of, date_of.
  destruct (OpenWeatherResponse.weather e) as [|w0 ws]; split.
  - discriminate.
  - intros (? & ? & ? & _). discriminate.
  - intros [= <-]. exists w0, ws. split; [reflexivity|].
    destruct (OpenWeatherResponse.dt_txt e); reflexivity.
  - intros (w & ws' & [= <- <-] & ->). 
    destruct (OpenWeatherResponse.dt_txt e); reflexivity.
Qed.

Lemma forecastDay_of_Thrown W e err :
  forecastDay_of W e = Thrown err ->
  OpenWeatherResponse.weather e = [] /\ isAxiosError err = false.
Proof.
  unfold forecastDay_of. destruct (OpenWeatherResponse.weather e); [|discriminate].
  intros [= <-]. split; reflexivity.
Qed.

Lemma traverse_Returned {A B} (f : A -> Outcome B) l ys :
  traverse f l = Returned ys ->
  length ys = length l
  /\ forall k x, l !! k = Some x -> exists y, f x = Returned y /\ ys !! k = Some y.
Proof.
  revert ys. induction l as [|x l IH]; intros ys; cbn [traverse].
  - intros [= <-]. split; [reflexivity|]. intros k x. rewrite lookup_nil. discriminate.
  - destruct (f x) as [y|] eqn:Hx; [|discriminate].
    destruct (traverse f l) as [ys'|]; [|discriminate].
    intros [= <-]. destruct (IH ys' eq_refl) as [Hlen Hk]. split.
    + cbn. rewrite Hlen. reflexivity.
    + intros [|k] x'; rewrite !lookup_cons.
      * intros [= <-]. exists y. split; [exact Hx | reflexivity].
      * apply Hk.
Qed.

Lemma traverse_Thrown {A B} (f : A -> Outcome B) l err :
  traverse f l = Thrown err -> exists x, x ∈ l /\ f x = Thrown err.
Proof.
  induction l as [|x l IH]; cbn [traverse]; [discriminate|].
  destruct (f x) as [y|e] eqn:Hx.
  - destruct (traverse f l) as [ys'|e']; [discriminate|].
    intros [= <-]. destruct (IH eq_refl) as (x' & Hin & Hx'). exists x'.
    split; [right; exact Hin | exact Hx'].
  - intros [= <-]. exists x. split; [left | exact Hx].
Qed.

Lemma traverse_total {A B} (f : A -> Outcome B) l :
  (forall x, x ∈ l -> exists y, f x = Returned y) ->
  exists ys, traverse f l = Returned ys.
Proof.
  intros H. destruct (traverse f l) as [ys|err] eqn:Ht; [exists ys; reflexivity|].
  apply traverse_Thrown in Ht as (x & Hin & Hx).
  destruct (H x Hin) as [y Hy]. congruence.
Qed.

Lemma forecast_loop_Thrown W l i acc err :
  forecast_loop W l i acc = Thrown err -> isAxiosError err = false.
Proof.
  rewrite forecast_loop_traverse.
  destruct (traverse _ _) eqn:Ht; [discriminate|]. intros [= <-].
  apply traverse_Thrown in Ht as (x & _ & Hx).
  apply forecastDay_of_Thrown in Hx. apply Hx.
Qed.

(** Run of the tool handler once routing and validation have passed. *)
Lemma handle_CallTool_valid W args log :
  isValidForecastArgs args = true ->
  handle_CallTool W "get_forecast" args log =
  (match provider_forecast W (forecast_request args) with
   | Returned l =>
       match forecast_loop W l 0 [] with
       | Returned fs => Returned (forecast_result fs)
       | Thrown e => Thrown e
       end
   | Thrown (AxiosFailure e) =>
       match provider_message e with
       | Returned message => Returned (error_result message)
       | Thrown e' => Thrown e'
       end
   | Thrown e => Thrown e
   end, (log ++ [forecast_request args])%list).
Proof.
  intros Hv. unfold handle_CallTool. rewrite Hv. cbn [String.eqb Ascii.eqb Bool.eqb negb].
  unfold try_catch, bind, axios_get, lift, ret, throw.
  fold (forecast_request args).
  destruct (provider_forecast W (forecast_request args)) as [l|e].
  - destruct (forecast_loop W l 0 []) as [fs|e] eqn:Hl; [reflexivity|].
    apply forecast_loop_Thrown in Hl. destruct e; try reflexivity; discriminate.
  - destruct e as [| e | |]; try reflexivity.
    destruct (provider_message e); reflexivity.
Qed.

Lemma handle_CallTool_invalid W args log :
  isValidForecastArgs args = false ->
  handle_CallTool W "get_forecast" args log =
  (Thrown (McpError InvalidParams "Invalid forecast arguments"), log).
Proof.
  intros Hv. unfold handle_CallTool. rewrite Hv. reflexivity.
Qed.

Lemma handle_ReadResource_known W log :
  handle_ReadResource W advertised_uri log =
  (match provider_current W current_request with
   | Returned data =>
       match weatherData_of W data with
       | Returned wd => Returned (snapshot_result advertised_uri wd)
       | Thrown e => Thrown e
       end
   | Thrown (AxiosFailure e) =>
       match provider_message e with
       | Returned message =>
           Thrown (McpError InternalError ("Weather API error: " +:+ message))
       | Thrown e' => Thrown e'
       end
   | Thrown e => Thrown e
   end, (log ++ [current_request])%list).
Proof.
  unfold handle_ReadResource.
  replace (String.eqb advertised_uri _) with true by (vm_compute; reflexivity).
  cbn [negb]. unfold try_catch, bind, axios_get, lift, ret, throw.
  fold current_request.
  destruct (provider_current W current_request) as [data|e].
  - unfold weatherData_of. destruct (OpenWeatherResponse.weather data); reflexivity.
  - destruct e as [| e | |]; try reflexivity.
    destruct (provider_message e); reflexivity.
Qed.

Lemma handle_ReadResource_unknown W uri log :
  uri <> advertised_uri ->
  handle_ReadResource W uri log =
  (Thrown (McpError InvalidRequest ("Unknown resource: " +:+ uri)), log).
Proof.
  intros Hne. unfold handle_ReadResource.
  fold advertised_uri. apply String.eqb_neq in Hne. rewrite Hne. reflexivity.
Qed.

Lemma traverse_forecast_dates W l fs :
  traverse (forecastDay_of W) l = Returned fs ->
  map ForecastDay.date fs = map (date_of W) l.
Proof.
  revert fs. induction l as [|x l IH]; intros fs; cbn [traverse].
  - intros [= <-]. reflexivity.
  - destruct (forecastDay_of W x) as [day|] eqn:Hx; [|discriminate].
    destruct (traverse (forecastDay_of W) l) as [ys|]; [|discriminate].
    intros [= <-]. cbn [map]. rewrite (IH ys eq_refl).
    apply forecastDay_of_Returned in Hx as (w0 & ws & _ & ->). reflexivity.
Qed.


(** ** The type guard and the day count *)

Lemma isValidForecastArgs_shape args :
  isValidForecastArgs args = true <-> ForecastRequestShape args.
Proof.
  unfold isValidForecastArgs, ForecastRequestShape.
  destruct args as [[| b | n | s | items | props]|];
    try (split; [discriminate | intros (? & ? & [=] & _)]).
  cbn [typeof is_null has get negb String.eqb Ascii.eqb Bool.eqb andb].
  destruct (props !! "city") as [[| | | c | |]|] eqn:Hc;
    try (split; [cbn; rewrite ?andb_false_r; discriminate
                | intros (? & ? & [= <-] & Hc' & _); congruence]).
  destruct (props !! "days") as [[| | n | | |]|] eqn:Hd;
    (split;
     [ try (cbn; discriminate);
       intros _; exists props, c; repeat split; eauto
     | try reflexivity;
       intros (? & ? & [= <-] & _ & [Hd' | [? Hd']]); congruence ]).
Qed.

Lemma isValidForecastArgs_city args :
  isValidForecastArgs args = true ->
  get args "city" = Some (JStr (GetForecastArgs.city args)).
Proof.
  intros H. apply isValidForecastArgs_shape in H as (props & c & -> & Hc & _).
  unfold GetForecastArgs.city. cbn [get]. rewrite Hc. reflexivity.
Qed.

Lemma isValidForecastArgs_days args :
  isValidForecastArgs args = true ->
  get args "days" = option_map JNum (GetForecastArgs.days args).
Proof.
  intros H. apply isValidForecastArgs_shape in H as (props & c & -> & _ & Hd).
  unfold GetForecastArgs.days. cbn [get].
  destruct Hd as [-> | [n ->]]; reflexivity.
Qed.

Lemma le_5_of_lt_5 d : (d <? 5)%float = true -> (d <=? 5)%float = true.
Proof.
  intros H. sf_cases d.
  destruct (e ?= -50)%Z; try discriminate; try reflexivity.
  destruct (Pos.compare_cont Eq m 5629499534213120); try discriminate; reflexivity.
Qed.

Lemma ge_5_of_not_lt_5 d :
  truthy d = true -> (d <? 5)%float = false -> (5 <=? d)%float = true.
Proof.
  intros Ht H. sf_cases d.
  rewrite (Z.compare_antisym e (-50)), (cmp_cont_antisym m 5629499534213120).
  destruct (e ?= -50)%Z; try discriminate; try reflexivity.
  destruct (Pos.compare_cont Eq m 5629499534213120); try discriminate; reflexivity.
Qed.

Lemma not_lt_1_of_ge_1 d : (1 <=? d)%float = true -> (d <? 1)%float = false.
Proof.
  intros H. sf_cases d.
  rewrite (Z.compare_antisym (-52) e), (cmp_cont_antisym 4503599627370496 m).
  destruct (-52 ?= e)%Z; try discriminate; try reflexivity.
  destruct (Pos.compare_cont Eq 4503599627370496 m); try discriminate; reflexivity.
Qed.

Lemma not_gt_5_of_le_5 d : (d <=? 5)%float = true -> (5 <? d)%float = false.
Proof.
  intros H. sf_cases d.
  rewrite (Z.compare_antisym e (-50)), (cmp_cont_antisym m 5629499534213120).
  destruct (e ?= -50)%Z; try discriminate; try reflexivity.
  destruct (Pos.compare_cont Eq m 5629499534213120); try discriminate; reflexivity.
Qed.

Lemma Math_min_5_lt a :
  truthy a = true -> (a <? 5)%float = true -> Math_min a 5 = a.
Proof.
  intros Ht Hlt. unfold Math_min. rewrite (truthy_not_nan a Ht), Hlt. reflexivity.
Qed.

Lemma Math_min_5_ge a : (5 <=? a)%float = true -> Math_min a 5 = 5%float.
Proof.
  intros H. destruct (ge_5_facts a H) as (Ht & Hlt & Hneg).
  unfold Math_min. rewrite (truthy_not_nan a Ht), Hlt, (truthy_get_sign a Ht), Hneg.
  cbn. destruct (5 <? a)%float; reflexivity.
Qed.

Lemma days_of_absent args :
  GetForecastArgs.days args = None -> days_of args = 3%float.
Proof. intros H. unfold days_of. rewrite H. vm_compute. reflexivity. Qed.

Lemma days_of_falsy args d :
  GetForecastArgs.days args = Some d -> truthy d = false -> days_of args = 3%float.
Proof. intros H Ht. unfold days_of, or_else. rewrite H, Ht. vm_compute. reflexivity. Qed.

Lemma days_of_below_5 args d :
  GetForecastArgs.days args = Some d -> truthy d = true -> (d <? 5)%float = true ->
  days_of args = d.
Proof.
  intros H Ht Hlt. unfold days_of, or_else. rewrite H, Ht. apply Math_min_5_lt; assumption.
Qed.

Lemma days_of_from_5 args d :
  GetForecastArgs.days args = Some d -> (5 <=? d)%float = true ->
  days_of args = 5%float.
Proof.
  intros H Hge. unfold days_of, or_else. rewrite H.
  destruct (ge_5_facts d Hge) as (-> & _). apply Math_min_5_ge. exact Hge.
Qed.

Lemma days_of_le_5 args : (days_of args <=? 5)%float = true.
Proof.
  destruct (GetForecastArgs.days args) as [d|] eqn:Hd.
  - destruct (truthy d) eqn:Ht.
    + destruct (d <? 5)%float eqn:Hlt.
      * rewrite (days_of_below_5 args d Hd Ht Hlt). apply le_5_of_lt_5, Hlt.
      * rewrite (days_of_from_5 args d Hd (ge_5_of_not_lt_5 d Ht Hlt)). reflexivity.
    + rewrite (days_of_falsy args d Hd Ht). reflexivity.
  - rewrite (days_of_absent args Hd). reflexivity.
Qed.

Lemma days_of_truthy args : truthy (days_of args) = true.
Proof.
  destruct (GetForecastArgs.days args) as [d|] eqn:Hd.
  - destruct (truthy d) eqn:Ht.
    + destruct (d <? 5)%float eqn:Hlt.
      * rewrite (days_of_below_5 args d Hd Ht Hlt). exact Ht.
      * rewrite (days_of_from_5 args d Hd (ge_5_of_not_lt_5 d Ht Hlt)). reflexivity.
    + rewrite (days_of_falsy args d Hd Ht). reflexivity.
  - rewrite (days_of_absent args Hd). reflexivity.
Qed.

Lemma lt_5_of_lt_0 d : (d <? 0)%float = true -> (d <? 5)%float = true.
Proof. intros H. sf_cases d. Qed.

(** ** The claims of the specification *)

(** C1.  When the provider's list holds [8 * d] entries, with [d] from 1 to
    5, a successful [get_forecast] call returns exactly [d] forecast days;
    the [k]-th comes from the entry at index [8 * k]: its temperature is that
    entry's [main.temp], its conditions are [weather[0].description], and its
    date is [dt_txt] up to the first space, or today's date when [dt_txt] is
    absent. *)
Theorem get_forecast_samples_each_day
    (W : World) (args : Any) (l : list OpenWeatherResponse.t) (d : nat)
    (fs : list ForecastDay.t) (log log' : list HttpRequest) :
  1 <= d <= 5 ->
  length l = 8 * d ->
  isValidForecastArgs args = true ->
  provider_forecast W (forecast_request args) = Returned l ->
  handle_CallTool W "get_forecast" args log = (Returned (forecast_result fs), log') ->
  length fs = d
  /\ forall k, k < d ->
       exists dayData w0 ws,
         l !! (8 * k) = Some dayData
         /\ OpenWeatherResponse.weather dayData = w0 :: ws
         /\ fs !! k =
            Some {| ForecastDay.date := date_of W dayData;
                    ForecastDay.temperature :=
                      OpenWeatherResponse.temp (OpenWeatherResponse.main dayData);
                    ForecastDay.conditions := OpenWeatherResponse.description w0 |}.
Proof.
  intros Hd Hlen Hv Hp Hrun.
  rewrite (handle_CallTool_valid W args log Hv), Hp, forecast_loop_0 in Hrun.
  destruct (traverse (forecastDay_of W) (stride8 l)) as [ys|e] eqn:Ht;
    [|discriminate].
  injection Hrun as <- _.
  apply traverse_Returned in Ht as [Hl Hk]. split.
  - rewrite Hl, stride8_length, Hlen.
    symmetry. apply Nat.div_unique with (r := 7); lia.
  - intros k Hkd.
    destruct (lookup_lt_is_Some_2 l (8 * k)) as [dayData Hday]; [lia|].
    destruct (Hk k dayData) as (day & Hf & Hy).
    { rewrite stride8_lookup. exact Hday. }
    apply forecastDay_of_Returned in Hf as (w0 & ws & Hw & ->).
    exists dayData, w0, ws. auto.
Qed.

Lemma get_forecast_samples_each_day_witness :
  let fs :=
    [ {| ForecastDay.date := "2024-01-01";
         ForecastDay.temperature := 10;
         ForecastDay.conditions := "light rain" |};
      {| ForecastDay.date := "2024-01-02";
         ForecastDay.temperature := 12.5;
         ForecastDay.conditions := "clear sky" |} ] in
  length fs = 2
  /\ forall k, k < 2 ->
       exists dayData w0 ws,
         two_days !! (8 * k) = Some dayData
         /\ OpenWeatherResponse.weather dayData = w0 :: ws
         /\ fs !! k =
            Some {| ForecastDay.date :=
                      date_of (world (Thrown (OtherError "unused")) (Returned two_days)) dayData;
                    ForecastDay.temperature :=
                      OpenWeatherResponse.temp (OpenWeatherResponse.main dayData);
                    ForecastDay.conditions := OpenWeatherResponse.description w0 |}.
Proof.
  apply (get_forecast_samples_each_day
           (world (Thrown (OtherError "unused")) (Returned two_days))
           (forecast_args "Paris" (Some 2%float)) two_days 2 _ []
           [forecast_request (forecast_args "Paris" (Some 2%float))]).
  - lia.
  - reflexivity.
  - vm_compute. reflexivity.
  - reflexivity.
  - vm_compute. reflexivity.
Defined.

(** C2.  The distinction does not hold for every HTTP failure.  When the
    provider answers with an error status and a body that is [null], the
    expression that picks the message throws inside the catch block of either
    handler: the resource read raises no protocol error and the tool call
    returns no result flagged [isError]; both end in the engine's
    [TypeError]. *)
Theorem provider_failure_with_null_body :
  let W := world (Thrown (AxiosFailure null_body)) (Thrown (AxiosFailure null_body)) in
  let args := forecast_args "Paris" None in
  handle_ReadResource W advertised_uri [] =
  (Thrown (TypeError "Cannot read properties of null (reading 'message')"),
   [current_request])
  /\ handle_CallTool W "get_forecast" args [] =
     (Thrown (TypeError "Cannot read properties of null (reading 'message')"),
      [forecast_request args]).
Proof.
  intros W args. split.
  - rewrite handle_ReadResource_known. reflexivity.
  - rewrite handle_CallTool_valid by (vm_compute; reflexivity). reflexivity.
Qed.

(** C3 as stated does not hold: a validated request with [days = -1] is sent
    on with the day count [-1], which is not [days] clamped to the interval
    from 1 to 5. *)
Lemma day_count_not_raised_to_1 :
  isValidForecastArgs (forecast_args "Paris" (Some (-1)%float)) = true
  /\ days_of (forecast_args "Paris" (Some (-1)%float)) = (-1)%float
  /\ days_of (forecast_args "Paris" (Some (-1)%float))
     <> spec_day_count (GetForecastArgs.days (forecast_args "Paris" (Some (-1)%float))).
Proof.
  split; [vm_compute; reflexivity|]. split; [vm_compute; reflexivity|].
  intros H. apply (f_equal (fun x => PrimFloat.ltb x 0)) in H.
  vm_compute in H. discriminate.
Qed.

(** C3, amended.  For a validated request the day count is 3 when [days] is
    absent, zero or [NaN]; it is 5 when [days] is at least 5; and it is [days]
    itself when [days] is below 5, values below 1 included.  On the interval
    from 1 to 5 this is the clamped value. *)
Theorem day_count_capped_at_5 (args : Any) :
  isValidForecastArgs args = true ->
  (GetForecastArgs.days args = None -> days_of args = 3%float)
  /\ (forall d, GetForecastArgs.days args = Some d -> truthy d = false ->
               days_of args = 3%float)
  /\ (forall d, GetForecastArgs.days args = Some d -> (5 <=? d)%float = true ->
               days_of args = 5%float)
  /\ (forall d, GetForecastArgs.days args = Some d -> truthy d = true ->
               (d <? 5)%float = true -> days_of args = d)
  /\ (forall d, GetForecastArgs.days args = Some d ->
               (1 <=? d)%float = true -> (d <=? 5)%float = true ->
               days_of args = spec_day_count (GetForecastArgs.days args)).
Proof.
  intros _. split; [apply days_of_absent|].
  split; [apply days_of_falsy|]. split; [apply days_of_from_5|].
  split; [apply days_of_below_5|].
  intros d Hd H1 H5. rewrite Hd. unfold spec_day_count, clamp.
  rewrite (not_lt_1_of_ge_1 d H1), (not_gt_5_of_le_5 d H5).
  destruct (d <? 5)%float eqn:Hlt.
  - apply (days_of_below_5 args d Hd (truthy_ge_1 d H1) Hlt).
  - rewrite (eq_5 d H5 Hlt) in *. apply (days_of_from_5 args 5%float Hd). reflexivity.
Qed.

Lemma day_count_capped_at_5_witness :
  days_of (forecast_args "Paris" None) = 3%float
  /\ days_of (forecast_args "Paris" (Some 0%float)) = 3%float
  /\ days_of (forecast_args "Paris" (Some 7%float)) = 5%float
  /\ days_of (forecast_args "Paris" (Some (-1)%float)) = (-1)%float
  /\ days_of (forecast_args "Paris" (Some 2%float))
     = spec_day_count (GetForecastArgs.days (forecast_args "Paris" (Some 2%float))).
Proof.
  split; [|split; [|split; [|split]]].
  - destruct (day_count_capped_at_5 (forecast_args "Paris" None)) as (H & _).
    { vm_compute. reflexivity. }
    apply H. vm_compute. reflexivity.
  - destruct (day_count_capped_at_5 (forecast_args "Paris" (Some 0%float)))
      as (_ & H & _).
    { vm_compute. reflexivity. }
    apply (H 0%float); vm_compute; reflexivity.
  - destruct (day_count_capped_at_5 (forecast_args "Paris" (Some 7%float)))
      as (_ & _ & H & _).
    { vm_compute. reflexivity. }
    apply (H 7%float); vm_compute; reflexivity.
  - destruct (day_count_capped_at_5 (forecast_args "Paris" (Some (-1)%float)))
      as (_ & _ & _ & H & _).
    { vm_compute. reflexivity. }
    apply (H (-1)%float); vm_compute; reflexivity.
  - destruct (day_count_capped_at_5 (forecast_args "Paris" (Some 2%float)))
      as (_ & _ & _ & _ & H).
    { vm_compute. reflexivity. }
    apply (H 2%float); vm_compute; reflexivity.
Defined.

(** C4.  An arguments value that is not a non-null structured value with a
    string [city] and an absent or numeric [days] makes [get_forecast] fail
    with [InvalidParams] without any request being issued; a value of that
    shape passes the guard, and the forecast request is issued. *)
Theorem get_forecast_validation_gate
    (W : World) (args : Any) (log : list HttpRequest) :
  (~ ForecastRequestShape args ->
   handle_CallTool W "get_forecast" args log =
   (Thrown (McpError InvalidParams "Invalid forecast arguments"), log))
  /\ (ForecastRequestShape args ->
      isValidForecastArgs args = true
      /\ snd (handle_CallTool W "get_forecast" args log) =
         (log ++ [forecast_request args])%list).
Proof.
  split.
  - intros Hn. apply handle_CallTool_invalid.
    destruct (isValidForecastArgs args) eqn:Hv; [|reflexivity].
    exfalso. apply Hn, isValidForecastArgs_shape, Hv.
  - intros Hs. apply isValidForecastArgs_shape in Hs.
    split; [exact Hs|]. rewrite (handle_CallTool_valid W args log Hs). reflexivity.
Qed.

Lemma get_forecast_validation_gate_witness :
  let W := world (Thrown (OtherError "unused")) (Returned two_days) in
  handle_CallTool W "get_forecast"
    (Some (JObj {[ "city" := JStr "Paris"; "days" := JStr "3" ]})) [] =
  (Thrown (McpError InvalidParams "Invalid forecast arguments"), [])
  /\ snd (handle_CallTool W "get_forecast" (forecast_args "Paris" (Some 3%float)) []) =
     [ {| url := "forecast"; q := "Paris"; cnt := Some 24%float |} ].
Proof.
  intros W. split.
  - apply (get_forecast_validation_gate W
             (Some (JObj {[ "city" := JStr "Paris"; "days" := JStr "3" ]})) []).
    intros (props & c & [= <-] & _ & [Hd | [n Hd]]); vm_compute in Hd; discriminate.
  - apply (get_forecast_validation_gate W (forecast_args "Paris" (Some 3%float)) []).
    exists {[ "city" := JStr "Paris"; "days" := JNum 3 ]}, "Paris".
    split; [reflexivity|]. split; [vm_compute; reflexivity|].
    right. exists 3%float. vm_compute. reflexivity.
Defined.

(** C5.  A resource read for a URI other than the advertised one fails with
    [InvalidRequest] ("Unknown resource") and issues no request. *)
Theorem read_resource_unknown_uri
    (W : World) (uri : string) (log : list HttpRequest) :
  uri ∉ map Resource.uri handle_ListResources ->
  handle_ReadResource W uri log =
  (Thrown (McpError InvalidRequest ("Unknown resource: " +:+ uri)), log).
Proof.
  intros H. apply handle_ReadResource_unknown. intros ->. apply H. left.
Qed.

Lemma read_resource_unknown_uri_witness :
  handle_ReadResource (world (Thrown (OtherError "unused")) (Returned two_days))
    "weather://Paris/current" [] =
  (Thrown (McpError InvalidRequest "Unknown resource: weather://Paris/current"), []).
Proof.
  apply (read_resource_unknown_uri _ "weather://Paris/current" []).
  intros Hr. apply list_elem_of_singleton in Hr. vm_compute in Hr. discriminate.
Defined.

(** C6 as stated does not hold: when the provider's entries carry no
    [dt_txt], every forecast day of a successful response gets today's date. *)
Lemma forecast_dates_can_repeat :
  let fs :=
    [ {| ForecastDay.date := "2024-05-06";
         ForecastDay.temperature := 10;
         ForecastDay.conditions := "light rain" |};
      {| ForecastDay.date := "2024-05-06";
         ForecastDay.temperature := 10;
         ForecastDay.conditions := "light rain" |} ] in
  handle_CallTool (world (Thrown (OtherError "unused")) (Returned two_days_undated))
    "get_forecast" (forecast_args "Paris" (Some 2%float)) [] =
  (Returned (forecast_result fs),
   [ {| url := "forecast"; q := "Paris"; cnt := Some 16%float |} ])
  /\ ~ NoDup (map ForecastDay.date fs).
Proof.
  split; [vm_compute; reflexivity|].
  cbn. intros H. apply NoDup_cons_1_1 in H. apply H. left.
Qed.

(** C6, amended.  In a successful response the dates are, in order, the
    dates of the sampled provider entries (indices 0, 8, 16, ...); they are
    pairwise distinct exactly when those entries' dates are. *)
Theorem forecast_dates_follow_sampled_entries
    (W : World) (args : Any) (l : list OpenWeatherResponse.t)
    (fs : list ForecastDay.t) (log log' : list HttpRequest) :
  isValidForecastArgs args = true ->
  provider_forecast W (forecast_request args) = Returned l ->
  handle_CallTool W "get_forecast" args log = (Returned (forecast_result fs), log') ->
  map ForecastDay.date fs = map (date_of W) (stride8 l)
  /\ (NoDup (map ForecastDay.date fs) <-> NoDup (map (date_of W) (stride8 l))).
Proof.
  intros Hv Hp Hrun.
  rewrite (handle_CallTool_valid W args log Hv), Hp, forecast_loop_0 in Hrun.
  destruct (traverse (forecastDay_of W) (stride8 l)) as [ys|e] eqn:Ht;
    [|discriminate].
  injection Hrun as <- _.
  rewrite (traverse_forecast_dates W _ _ Ht). split; reflexivity.
Qed.

Lemma forecast_dates_follow_sampled_entries_witness :
  let W := world (Thrown (OtherError "unused")) (Returned two_days) in
  let fs :=
    [ {| ForecastDay.date := "2024-01-01";
         ForecastDay.temperature := 10;
         ForecastDay.conditions := "light rain" |};
      {| ForecastDay.date := "2024-01-02";
         ForecastDay.temperature := 12.5;
         ForecastDay.conditions := "clear sky" |} ] in
  map ForecastDay.date fs = map (date_of W) (stride8 two_days)
  /\ (NoDup (map ForecastDay.date fs) <-> NoDup (map (date_of W) (stride8 two_days))).
Proof.
  intros W fs.
  apply (forecast_dates_follow_sampled_entries W
           (forecast_args "Paris" (Some 2%float)) two_days fs []
           [forecast_request (forecast_args "Paris" (Some 2%float))]).
  - vm_compute. reflexivity.
  - reflexivity.
  - vm_compute. reflexivity.
Defined.

(** C7.  When the provider answers the current-weather request with a
    non-empty [weather] list, the resource read returns a snapshot with the
    provider's [main.temp], [weather[0].description], [main.humidity] and
    [wind.speed], and with the wall clock's reading as timestamp. *)
Theorem read_resource_snapshot
    (W : World) (data : OpenWeatherResponse.t)
    (w0 : OpenWeatherResponse.Weather) (ws : list OpenWeatherResponse.Weather)
    (log : list HttpRequest) :
  provider_current W current_request = Returned data ->
  OpenWeatherResponse.weather data = w0 :: ws ->
  handle_ReadResource W advertised_uri log =
  (Returned
     {| contents :=
          [ {| ResourceContents.uri := advertised_uri;
               ResourceContents.mimeType := "application/json";
               ResourceContents.text :=
                 JSON_stringify_WeatherData
                   {| WeatherData.temperature :=
                        OpenWeatherResponse.temp (OpenWeatherResponse.main data);
                      WeatherData.conditions := OpenWeatherResponse.description w0;
                      WeatherData.humidity :=
                        OpenWeatherResponse.humidity (OpenWeatherResponse.main data);
                      WeatherData.wind_speed :=
                        OpenWeatherResponse.speed (OpenWeatherResponse.wind data);
                      WeatherData.timestamp := now W |} |} ] |},
   (log ++ [current_request])%list).
Proof.
  intros Hp Hw. rewrite handle_ReadResource_known, Hp.
  unfold weatherData_of. rewrite Hw. reflexivity.
Qed.

Lemma read_resource_snapshot_witness :
  let data :=
    {| OpenWeatherResponse.main :=
         {| OpenWeatherResponse.temp := 21.5; OpenWeatherResponse.humidity := 60 |};
       OpenWeatherResponse.weather :=
         [ {| OpenWeatherResponse.description := "clear sky" |} ];
       OpenWeatherResponse.wind := {| OpenWeatherResponse.speed := 3.5 |};
       OpenWeatherResponse.dt_txt := Some "2024-01-01 00:00:00" |} in
  handle_ReadResource (world (Returned data) (Returned [])) advertised_uri [] =
  (Returned
     {| contents :=
          [ {| ResourceContents.uri := "weather://San Francisco/current";
               ResourceContents.mimeType := "application/json";
               ResourceContents.text :=
                 JSON_stringify_WeatherData
                   {| WeatherData.temperature := 21.5;
                      WeatherData.conditions := "clear sky";
                      WeatherData.humidity := 60;
                      WeatherData.wind_speed := 3.5;
                      WeatherData.timestamp := "2024-05-06T07:08:09.000Z" |} |} ] |},
   [ {| url := "weather"; q := "San Francisco"; cnt := None |} ]).
Proof.
  intros data.
  apply (read_resource_snapshot (world (Returned data) (Returned [])) data
           {| OpenWeatherResponse.description := "clear sky" |} [] []);
    reflexivity.
Defined.

(** C8 as stated does not hold: the guard accepts a [city] that is the empty
    string, and the forecast request is issued with an empty [q]. *)
Lemma empty_city_is_accepted :
  isValidForecastArgs (forecast_args "" None) = true
  /\ get (forecast_args "" None) "city" = Some (JStr "")
  /\ handle_CallTool (world (Thrown (OtherError "unused")) (Returned []))
       "get_forecast" (forecast_args "" None) [] =
     (Returned (forecast_result []),
      [ {| url := "forecast"; q := ""; cnt := Some 24%float |} ]).
Proof. repeat split; vm_compute; reflexivity. Qed.

(** C8, amended.  Every arguments value the guard accepts has a [city] field
    whose value is a string, the empty string included, and the forecast
    request is issued with that string as [q]. *)
Theorem accepted_city_is_a_string
    (W : World) (args : Any) (log : list HttpRequest) :
  isValidForecastArgs args = true ->
  exists c,
    get args "city" = Some (JStr c)
    /\ snd (handle_CallTool W "get_forecast" args log) =
       (log ++ [ {| url := API_CONFIG.ENDPOINTS.FORECAST;
                   q := c;
                   cnt := Some (days_of args * 8)%float |} ])%list.
Proof.
  intros Hv. exists (GetForecastArgs.city args).
  split; [apply isValidForecastArgs_city, Hv|].
  rewrite (handle_CallTool_valid W args log Hv). reflexivity.
Qed.

Lemma accepted_city_is_a_string_witness :
  exists c,
    get (forecast_args "" None) "city" = Some (JStr c)
    /\ snd (handle_CallTool (world (Thrown (OtherError "unused")) (Returned []))
              "get_forecast" (forecast_args "" None) []) =
       ([] ++ [ {| url := API_CONFIG.ENDPOINTS.FORECAST;
                  q := c;
                  cnt := Some (days_of (forecast_args "" None) * 8)%float |} ])%list.
Proof.
  apply (accepted_city_is_a_string
           (world (Thrown (OtherError "unused")) (Returned []))
           (forecast_args "" None) []).
  vm_compute. reflexivity.
Defined.

(** C9 as stated does not hold: for a validated request with [days = 0] the
    forecast request is issued with [cnt = 24], not [cnt = 0]. *)
Lemma zero_days_requests_24_entries :
  isValidForecastArgs (forecast_args "Paris" (Some 0%float)) = true
  /\ GetForecastArgs.days (forecast_args "Paris" (Some 0%float)) = Some 0%float
  /\ snd (handle_CallTool (world (Thrown (OtherError "unused")) (Returned []))
            "get_forecast" (forecast_args "Paris" (Some 0%float)) []) =
     [ {| url := "forecast"; q := "Paris"; cnt := Some 24%float |} ]
  /\ cnt (forecast_request (forecast_args "Paris" (Some 0%float))) <> Some 0%float.
Proof.
  repeat split; try (vm_compute; reflexivity).
  intros H.
  apply (f_equal (fun o => match o with Some x => PrimFloat.ltb 0 x | None => false end)) in H.
  vm_compute in H. discriminate.
Qed.

(** C9, amended.  For a validated request with [days = 0] the default of 3
    days is used and the forecast request is issued with [cnt = 24]; a
    negative [days] is not raised, and the request carries [cnt = days * 8]. *)
Theorem zero_days_falls_back_to_default
    (W : World) (args : Any) (d : float) (log : list HttpRequest) :
  isValidForecastArgs args = true ->
  GetForecastArgs.days args = Some d ->
  (PrimFloat.is_zero d = true ->
   snd (handle_CallTool W "get_forecast" args log) =
   (log ++ [ {| url := API_CONFIG.ENDPOINTS.FORECAST;
               q := GetForecastArgs.city args;
               cnt := Some 24%float |} ])%list)
  /\ ((d <? 0)%float = true ->
      snd (handle_CallTool W "get_forecast" args log) =
      (log ++ [ {| url := API_CONFIG.ENDPOINTS.FORECAST;
                  q := GetForecastArgs.city args;
                  cnt := Some (d * 8)%float |} ])%list).
Proof.
  intros Hv Hd.
  rewrite (handle_CallTool_valid W args log Hv). cbn [snd]. unfold forecast_request.
  split.
  - intros Hz. rewrite (days_of_falsy args d Hd).
    + reflexivity.
    + unfold truthy. rewrite Hz. reflexivity.
  - intros Hneg. rewrite (days_of_below_5 args d Hd (truthy_lt_0 d Hneg)).
    + reflexivity.
    + apply lt_5_of_lt_0, Hneg.
Qed.

Lemma zero_days_falls_back_to_default_witness :
  snd (handle_CallTool (world (Thrown (OtherError "unused")) (Returned []))
         "get_forecast" (forecast_args "Paris" (Some 0%float)) []) =
  ([] ++ [ {| url := API_CONFIG.ENDPOINTS.FORECAST;
             q := GetForecastArgs.city (forecast_args "Paris" (Some 0%float));
             cnt := Some 24%float |} ])%list
  /\ snd (handle_CallTool (world (Thrown (OtherError "unused")) (Returned []))
            "get_forecast" (forecast_args "Paris" (Some (-1)%float)) []) =
     ([] ++ [ {| url := API_CONFIG.ENDPOINTS.FORECAST;
                q := GetForecastArgs.city (forecast_args "Paris" (Some (-1)%float));
                cnt := Some (-1 * 8)%float |} ])%list.
Proof.
  split.
  - apply (zero_days_falls_back_to_default
             (world (Thrown (OtherError "unused")) (Returned []))
             (forecast_args "Paris" (Some 0%float)) 0%float []);
      vm_compute; reflexivity.
  - apply (zero_days_falls_back_to_default
             (world (Thrown (OtherError "unused")) (Returned []))
             (forecast_args "Paris" (Some (-1)%float)) (-1)%float []);
      vm_compute; reflexivity.
Defined.

(** C10.  The number of forecast days in a successful response is the
    length of the provider's list divided by 8, rounded up, whatever day count
    was requested. *)
Theorem forecast_count_follows_response_length
    (W : World) (args : Any) (l : list OpenWeatherResponse.t)
    (r : CallToolResult) (log log' : list HttpRequest) :
  isValidForecastArgs args = true ->
  provider_forecast W (forecast_request args) = Returned l ->
  handle_CallTool W "get_forecast" args log = (Returned r, log') ->
  exists fs, r = forecast_result fs /\ length fs = (length l + 7) / 8.
Proof.
  intros Hv Hp Hrun.
  rewrite (handle_CallTool_valid W args log Hv), Hp, forecast_loop_0 in Hrun.
  destruct (traverse (forecastDay_of W) (stride8 l)) as [ys|e] eqn:Ht;
    [|discriminate].
  injection Hrun as <- _. exists ys. split; [reflexivity|].
  apply traverse_Returned in Ht as [-> _]. apply stride8_length.
Qed.

Lemma forecast_count_follows_response_length_witness :
  exists fs,
    forecast_result
      [ {| ForecastDay.date := "2024-01-01";
           ForecastDay.temperature := 10;
           ForecastDay.conditions := "light rain" |};
        {| ForecastDay.date := "2024-01-02";
           ForecastDay.temperature := 12.5;
           ForecastDay.conditions := "clear sky" |} ] = forecast_result fs
    /\ length fs = (length two_days + 7) / 8.
Proof.
  apply (forecast_count_follows_response_length
           (world (Thrown (OtherError "unused")) (Returned two_days))
           (forecast_args "Paris" (Some 1%float)) two_days _ []
           [forecast_request (forecast_args "Paris" (Some 1%float))]).
  - vm_compute. reflexivity.
  - reflexivity.
  - vm_compute. reflexivity.
Defined.

(** ** Further properties of the handlers *)

Lemma app_singleton_neq {A} (l : list A) x : (l ++ [x])%list <> l.
Proof.
  intros H. apply (f_equal length) in H. rewrite length_app in H. cbn in H. lia.
Qed.

Lemma handle_CallTool_unknown W name args log :
  name <> "get_forecast" ->
  handle_CallTool W name args log =
  (Thrown (McpError MethodNotFound ("Unknown tool: " +:+ name)), log).
Proof.
  intros Hne. unfold handle_CallTool. apply String.eqb_neq in Hne. rewrite Hne.
  reflexivity.
Qed.

Lemma forecastDay_of_Thrown_TypeError W e err :
  forecastDay_of W e = Thrown err ->
  err = TypeError "Cannot read properties of undefined (reading 'description')".
Proof.
  unfold forecastDay_of. destruct (OpenWeatherResponse.weather e); [|discriminate].
  intros [= <-]. reflexivity.
Qed.

Lemma forecastDay_of_empty W e :
  OpenWeatherResponse.weather e = [] ->
  forecastDay_of W e =
  Thrown (TypeError "Cannot read properties of undefined (reading 'description')").
Proof. intros H. unfold forecastDay_of. rewrite H. reflexivity. Qed.

Lemma traverse_Exists_Thrown {A B} (f : A -> Outcome B) l :
  Exists (fun x => exists err, f x = Thrown err) l ->
  exists err, traverse f l = Thrown err.
Proof.
  induction 1 as [x l [err Hx] | x l _ [err IH]]; cbn [traverse].
  - rewrite Hx. eauto.
  - destruct (f x); [rewrite IH|]; eauto.
Qed.

Lemma split_head_prefix sep s : String.prefix (split_head sep s) s = true.
Proof.
  induction s as [|c s IH]; cbn; [reflexivity|].
  destruct (Ascii.eqb c sep); cbn; [reflexivity|].
  destruct (ascii_dec c c); [exact IH | congruence].
Qed.

Lemma split_head_no_sep sep s c :
  In c (list_ascii_of_string (split_head sep s)) -> c <> sep.
Proof.
  induction s as [|c' s IH]; cbn; [tauto|].
  destruct (Ascii.eqb c' sep) eqn:Hc; cbn; [tauto|].
  intros [<- | Hin]; [|exact (IH Hin)].
  apply Ascii.eqb_neq, Hc.
Qed.

Lemma split_head_whole sep s :
  String.index 0 (String sep EmptyString) s = None -> split_head sep s = s.
Proof.
  induction s as [|c s IH]; [reflexivity|].
  cbn [split_head String.index String.prefix].
  destruct (ascii_dec sep c) as [->|Hne].
  - destruct s; discriminate.
  - intros H. destruct (Ascii.eqb c sep) eqn:Hc.
    + apply Ascii.eqb_eq in Hc. congruence.
    + f_equal. apply IH.
      destruct (String.index 0 (String sep "") s); [discriminate|reflexivity].
Qed.

(** X1.  The tool name that [handle_ListTools] advertises is exactly the one
    [handle_CallTool] routes: any other name fails with [MethodNotFound]
    ("Unknown tool") before the arguments are looked at and without a request,
    and the advertised name never does. *)
Theorem call_tool_name_is_the_advertised_one
    (W : World) (name : string) (args : Any) (log : list HttpRequest) :
  name ∈ map Tool.name handle_ListTools <->
  handle_CallTool W name args log <>
  (Thrown (McpError MethodNotFound ("Unknown tool: " +:+ name)), log).
Proof.
  split.
  - intros Hin. apply list_elem_of_singleton in Hin. cbn in Hin. subst name.
    destruct (isValidForecastArgs args) eqn:Hv.
    + rewrite (handle_CallTool_valid W args log Hv). intros [= _ H].
      exact (app_singleton_neq _ _ H).
    + rewrite (handle_CallTool_invalid W args log Hv). discriminate.
  - intros Hne. apply list_elem_of_singleton. cbn.
    destruct (string_dec name "get_forecast") as [|Hn]; [assumption|].
    exfalso. apply Hne, handle_CallTool_unknown, Hn.
Qed.

(** X2.  Whatever the provider answers, a resource read issues exactly one
    GET (the current-weather request) when the URI is the advertised one and
    none otherwise; a tool call issues exactly one GET (the forecast request)
    when the name is [get_forecast] and the guard accepts the arguments, and
    none otherwise.  Earlier requests stay in the log; nothing is retried. *)
Theorem requests_issued_by_the_handlers
    (W : World) (uri name : string) (args : Any) (log : list HttpRequest) :
  snd (handle_ReadResource W uri log) =
    (if String.eqb uri advertised_uri then log ++ [current_request] else log)%list
  /\ snd (handle_CallTool W name args log) =
       (if String.eqb name "get_forecast" && isValidForecastArgs args
        then log ++ [forecast_request args] else log)%list.
Proof.
  split.
  - destruct (String.eqb uri advertised_uri) eqn:Hu.
    + apply String.eqb_eq in Hu as ->. rewrite handle_ReadResource_known. reflexivity.
    + apply String.eqb_neq in Hu. rewrite (handle_ReadResource_unknown W uri log Hu).
      reflexivity.
  - destruct (String.eqb name "get_forecast") eqn:Hn.
    + apply String.eqb_eq in Hn as ->. destruct (isValidForecastArgs args) eqn:Hv.
      * rewrite (handle_CallTool_valid W args log Hv). reflexivity.
      * rewrite (handle_CallTool_invalid W args log Hv). reflexivity.
    + apply String.eqb_neq in Hn. rewrite (handle_CallTool_unknown W name args log Hn).
      reflexivity.
Qed.

(** X3.  When the provider answers the current-weather request with an
    empty [weather] list, the resource read throws the engine's [TypeError]
    after the request was issued; the error is not turned into a protocol
    error. *)
Theorem read_resource_empty_weather_list
    (W : World) (data : OpenWeatherResponse.t) (log : list HttpRequest) :
  provider_current W current_request = Returned data ->
  OpenWeatherResponse.weather data = [] ->
  handle_ReadResource W advertised_uri log =
  (Thrown (TypeError "Cannot read properties of undefined (reading 'description')"),
   (log ++ [current_request])%list).
Proof.
  intros Hp Hw. rewrite handle_ReadResource_known, Hp.
  unfold weatherData_of. rewrite Hw. reflexivity.
Qed.

(** X4.  A forecast call whose provider answer has a non-empty [weather]
    list in every sampled entry (indices 0, 8, 16, ...) returns a forecast; if
    some sampled entry has an empty [weather] list, the whole call throws a
    [TypeError] and no forecast day is returned.  The entries in between are
    never inspected. *)
Theorem get_forecast_succeeds_iff_sampled_weather
    (W : World) (args : Any) (l : list OpenWeatherResponse.t)
    (log : list HttpRequest) :
  isValidForecastArgs args = true ->
  provider_forecast W (forecast_request args) = Returned l ->
  (Forall (fun e => OpenWeatherResponse.weather e <> []) (stride8 l) ->
   exists fs,
     handle_CallTool W "get_forecast" args log =
     (Returned (forecast_result fs), (log ++ [forecast_request args])%list))
  /\ (Exists (fun e => OpenWeatherResponse.weather e = []) (stride8 l) ->
      handle_CallTool W "get_forecast" args log =
      (Thrown (TypeError "Cannot read properties of undefined (reading 'description')"),
       (log ++ [forecast_request args])%list)).
Proof.
  intros Hv Hp. rewrite (handle_CallTool_valid W args log Hv), Hp, forecast_loop_0.
  split.
  - intros Hall. destruct (traverse_total (forecastDay_of W) (stride8 l)) as [fs ->].
    + intros e He. rewrite Forall_forall in Hall. specialize (Hall e He).
      unfold forecastDay_of. destruct (OpenWeatherResponse.weather e); [congruence|eauto].
    + eauto.
  - intros Hex.
    destruct (traverse_Exists_Thrown (forecastDay_of W) (stride8 l)) as [err Ht].
    + eapply Exists_impl; [exact Hex|]. intros e He. cbn beta.
      rewrite (forecastDay_of_empty W e He). eauto.
    + rewrite Ht. apply traverse_Thrown in Ht as (x & _ & Hx).
      rewrite (forecastDay_of_Thrown_TypeError W x err Hx). reflexivity.
Qed.

Lemma read_resource_empty_weather_list_witness :
  let data :=
    {| OpenWeatherResponse.main :=
         {| OpenWeatherResponse.temp := 21.5; OpenWeatherResponse.humidity := 60 |};
       OpenWeatherResponse.weather := [];
       OpenWeatherResponse.wind := {| OpenWeatherResponse.speed := 3.5 |};
       OpenWeatherResponse.dt_txt := None |} in
  handle_ReadResource (world (Returned data) (Returned [])) advertised_uri [] =
  (Thrown (TypeError "Cannot read properties of undefined (reading 'description')"),
   ([] ++ [current_request])%list).
Proof.
  intros data.
  apply (read_resource_empty_weather_list (world (Returned data) (Returned [])) data []);
    reflexivity.
Defined.

Lemma get_forecast_succeeds_iff_sampled_weather_witness :
  let W := world (Thrown (OtherError "unused")) (Returned two_days_second_bare) in
  let args := forecast_args "Paris" (Some 2%float) in
  handle_CallTool W "get_forecast" args [] =
  (Thrown (TypeError "Cannot read properties of undefined (reading 'description')"),
   ([] ++ [forecast_request args])%list).
Proof.
  intros W args.
  apply (get_forecast_succeeds_iff_sampled_weather W args two_days_second_bare []).
  - vm_compute. reflexivity.
  - reflexivity.
  - apply Exists_exists. exists bare_entry.
    split; [vm_compute; right; left | reflexivity].
Defined.

(** X5.  A provider failure that is not an axios error is rethrown
    unchanged by both handlers: no protocol error and no error result is made
    of it. *)
Theorem other_failures_propagate_unchanged
    (W : World) (args : Any) (e : Exception) (log : list HttpRequest) :
  isAxiosError e = false ->
  (provider_current W current_request = Thrown e ->
   handle_ReadResource W advertised_uri log =
   (Thrown e, (log ++ [current_request])%list))
  /\ (isValidForecastArgs args = true ->
      provider_forecast W (forecast_request args) = Thrown e ->
      handle_CallTool W "get_forecast" args log =
      (Thrown e, (log ++ [forecast_request args])%list)).
Proof.
  intros He. split.
  - intros Hp. rewrite handle_ReadResource_known, Hp. destruct e; try reflexivity.
    discriminate.
  - intros Hv Hp. rewrite (handle_CallTool_valid W args log Hv), Hp.
    destruct e; try reflexivity. discriminate.
Qed.

Lemma other_failures_propagate_unchanged_witness :
  let W := world (Thrown (OtherError "socket closed")) (Thrown (OtherError "socket closed")) in
  let args := forecast_args "Paris" None in
  handle_ReadResource W advertised_uri [] =
  (Thrown (OtherError "socket closed"), ([] ++ [current_request])%list)
  /\ handle_CallTool W "get_forecast" args [] =
     (Thrown (OtherError "socket closed"), ([] ++ [forecast_request args])%list).
Proof.
  intros W args.
  destruct (other_failures_propagate_unchanged W args (OtherError "socket closed") [])
    as [Hread Hcall]; [reflexivity|].
  split; [apply Hread; reflexivity | apply Hcall; [vm_compute; reflexivity | reflexivity]].
Defined.

(** X6.  Whatever the arguments, the day count sent to the provider is at
    most 5, is not [NaN] and is not zero. *)
Theorem day_count_is_bounded (args : Any) :
  (days_of args <=? 5)%float = true
  /\ PrimFloat.is_nan (days_of args) = false
  /\ PrimFloat.is_zero (days_of args) = false.
Proof.
  split; [apply days_of_le_5|].
  pose proof (days_of_truthy args) as Ht. unfold truthy in Ht.
  destruct (PrimFloat.is_zero (days_of args)), (PrimFloat.is_nan (days_of args));
    cbn in Ht; try discriminate; split; reflexivity.
Qed.

(** X7.  Properties other than [city] and [days] play no part: adding one
    to an arguments object changes neither the guard's verdict nor the
    forecast request. *)
Theorem guard_ignores_other_properties
    (props : gmap string Json) (k : string) (v : Json) :
  k <> "city" -> k <> "days" ->
  isValidForecastArgs (Some (JObj (<[k:=v]> props))) =
  isValidForecastArgs (Some (JObj props))
  /\ forecast_request (Some (JObj (<[k:=v]> props))) =
     forecast_request (Some (JObj props)).
Proof.
  intros Hc Hd.
  unfold isValidForecastArgs, forecast_request, days_of,
    GetForecastArgs.city, GetForecastArgs.days.
  cbn [get has typeof is_null].
  rewrite !(lookup_insert_ne props k "city" v Hc), !(lookup_insert_ne props k "days" v Hd).
  split; reflexivity.
Qed.

Lemma guard_ignores_other_properties_witness :
  isValidForecastArgs
    (Some (JObj (<["units":=JStr "imperial"]> {[ "city" := JStr "Paris" ]}))) =
  isValidForecastArgs (Some (JObj {[ "city" := JStr "Paris" ]}))
  /\ forecast_request
       (Some (JObj (<["units":=JStr "imperial"]> {[ "city" := JStr "Paris" ]}))) =
     forecast_request (Some (JObj {[ "city" := JStr "Paris" ]})).
Proof.
  apply (guard_ignores_other_properties {[ "city" := JStr "Paris" ]} "units"
           (JStr "imperial")); discriminate.
Defined.

(** X8.  When the sampled entry carries [dt_txt], the date of its forecast
    day is a prefix of [dt_txt] that holds no space, and it is the whole of
    [dt_txt] when that holds no space. *)
Theorem forecast_date_is_cut_at_first_space
    (W : World) (dayData : OpenWeatherResponse.t) (day : ForecastDay.t) (t : string) :
  forecastDay_of W dayData = Returned day ->
  OpenWeatherResponse.dt_txt dayData = Some t ->
  String.prefix (ForecastDay.date day) t = true
  /\ (forall c, In c (list_ascii_of_string (ForecastDay.date day)) -> c <> " "%char)
  /\ (String.index 0 " " t = None -> ForecastDay.date day = t).
Proof.
  intros Hf Ht. apply forecastDay_of_Returned in Hf as (w0 & ws & _ & ->).
  cbn [ForecastDay.date]. unfold date_of. rewrite Ht.
  split; [apply split_head_prefix|]. split; [apply split_head_no_sep|].
  apply split_head_whole.
Qed.

Lemma forecast_date_is_cut_at_first_space_witness :
  let W := world (Thrown (OtherError "unused")) (Returned []) in
  let day :=
    {| ForecastDay.date := "2024-01-01";
       ForecastDay.temperature := 10;
       ForecastDay.conditions := "light rain" |} in
  String.prefix (ForecastDay.date day) "2024-01-01 00:00:00" = true
  /\ (forall c, In c (list_ascii_of_string (ForecastDay.date day)) -> c <> " "%char)
  /\ (String.index 0 " " "2024-01-01 00:00:00" = None ->
      ForecastDay.date day = "2024-01-01 00:00:00").
Proof.
  intros W day.
  apply (forecast_date_is_cut_at_first_space W
           (entry (Some "2024-01-01 00:00:00") 10 "light rain") day
           "2024-01-01 00:00:00"); reflexivity.
Defined.

(** X9.  For a provider list of any length, the [k]-th forecast day of a
    successful call is built from the entry at index [8 * k] whenever that
    index is in range, a last block of fewer than 8 entries included, and
    there is no [k]-th day otherwise. *)
Theorem get_forecast_samples_every_8th_entry
    (W : World) (args : Any) (l : list OpenWeatherResponse.t)
    (fs : list ForecastDay.t) (log log' : list HttpRequest) :
  isValidForecastArgs args = true ->
  provider_forecast W (forecast_request args) = Returned l ->
  handle_CallTool W "get_forecast" args log = (Returned (forecast_result fs), log') ->
  forall k,
    match l !! (8 * k) with
    | Some dayData =>
        exists w0 ws,
          OpenWeatherResponse.weather dayData = w0 :: ws
          /\ fs !! k =
             Some {| ForecastDay.date := date_of W dayData;
                     ForecastDay.temperature :=
                       OpenWeatherResponse.temp (OpenWeatherResponse.main dayData);
                     ForecastDay.conditions := OpenWeatherResponse.description w0 |}
    | None => fs !! k = None
    end.
Proof.
  intros Hv Hp Hrun k.
  rewrite (handle_CallTool_valid W args log Hv), Hp, forecast_loop_0 in Hrun.
  destruct (traverse (forecastDay_of W) (stride8 l)) as [ys|e] eqn:Ht;
    [|discriminate].
  injection Hrun as <- _.
  apply traverse_Returned in Ht as [Hl Hk].
  destruct (l !! (8 * k)) as [dayData|] eqn:Hday.
  - destruct (Hk k dayData) as (day & Hf & Hy).
    { rewrite stride8_lookup. exact Hday. }
    apply forecastDay_of_Returned in Hf as (w0 & ws & Hw & ->). eauto.
  - apply lookup_ge_None. rewrite Hl. apply lookup_ge_None.
    rewrite stride8_lookup. exact Hday.
Qed.

Lemma get_forecast_samples_every_8th_entry_witness :
  let W := world (Thrown (OtherError "unused")) (Returned (take 9 two_days)) in
  let fs :=
    [ {| ForecastDay.date := "2024-01-01";
         ForecastDay.temperature := 10;
         ForecastDay.conditions := "light rain" |};
      {| ForecastDay.date := "2024-01-02";
         ForecastDay.temperature := 12.5;
         ForecastDay.conditions := "clear sky" |} ] in
  let sampled k :=
    match take 9 two_days !! (8 * k) with
    | Some dayData =>
        exists w0 ws,
          OpenWeatherResponse.weather dayData = w0 :: ws
          /\ fs !! k =
             Some {| ForecastDay.date := date_of W dayData;
                     ForecastDay.temperature :=
                       OpenWeatherResponse.temp (OpenWeatherResponse.main dayData);
                     ForecastDay.conditions := OpenWeatherResponse.description w0 |}
    | None => fs !! k = None
    end in
  sampled 0 /\ sampled 1 /\ sampled 2.
Proof.
  intros W fs sampled.
  assert (Hv : isValidForecastArgs (forecast_args "Paris" (Some 2%float)) = true)
    by (vm_compute; reflexivity).
  assert (Hrun : handle_CallTool W "get_forecast"
                   (forecast_args "Paris" (Some 2%float)) [] =
                 (Returned (forecast_result fs),
                  [forecast_request (forecast_args "Paris" (Some 2%float))]))
    by (vm_compute; reflexivity).
  pose proof (get_forecast_samples_every_8th_entry W
                (forecast_args "Paris" (Some 2%float)) (take 9 two_days) fs [] _
                Hv eq_refl Hrun) as H.
  split; [exact (H 0) | split; [exact (H 1) | exact (H 2)]].
Defined.

(** X10.  The type guard is sound for [GetForecastArgs]: once it accepts,
    [args.city] is a string and [args.days] is a number or [undefined]. *)
Theorem guard_narrows_to_GetForecastArgs (args : Any) :
  isValidForecastArgs args = true ->
  get args "city" = Some (JStr (GetForecastArgs.city args))
  /\ get args "days" = option_map JNum (GetForecastArgs.days args).
Proof.
  intros Hv. split;
    [apply isValidForecastArgs_city | apply isValidForecastArgs_days]; exact Hv.
Qed.

Lemma guard_narrows_to_GetForecastArgs_witness :
  get (forecast_args "Paris" (Some 2%float)) "city" =
    Some (JStr (GetForecastArgs.city (forecast_args "Paris" (Some 2%float))))
  /\ get (forecast_args "Paris" (Some 2%float)) "days" =
     option_map JNum (GetForecastArgs.days (forecast_args "Paris" (Some 2%float))).
Proof.
  apply (guard_narrows_to_GetForecastArgs (forecast_args "Paris" (Some 2%float))).
  vm_compute. reflexivity.
Defined.

(** X11.  A tool call whose arguments are omitted, [null], an array or a
    primitive fails with [InvalidParams] and issues no request. *)
Theorem call_tool_rejects_non_objects
    (W : World) (args : Any) (log : list HttpRequest) :
  (forall props, args <> Some (JObj props)) ->
  handle_CallTool W "get_forecast" args log =
  (Thrown (McpError InvalidParams "Invalid forecast arguments"), log).
Proof.
  intros Hn. apply handle_CallTool_invalid.
  destruct args as [[| | | | |props]|]; try reflexivity.
  exfalso. exact (Hn props eq_refl).
Qed.

Lemma call_tool_rejects_non_objects_witness :
  let W := world (Thrown (OtherError "unused")) (Returned two_days) in
  handle_CallTool W "get_forecast" None [] =
  (Thrown (McpError InvalidParams "Invalid forecast arguments"), [])
  /\ handle_CallTool W "get_forecast" (Some JNull) [] =
     (Thrown (McpError InvalidParams "Invalid forecast arguments"), [])
  /\ handle_CallTool W "get_forecast" (Some (JArr [JStr "Paris"])) [] =
     (Thrown (McpError InvalidParams "Invalid forecast arguments"), []).
Proof.
  intros W. split; [|split].
  - apply (call_tool_rejects_non_objects W None []). discriminate.
  - apply (call_tool_rejects_non_objects W (Some JNull) []). discriminate.
  - apply (call_tool_rejects_non_objects W (Some (JArr [JStr "Paris"])) []). discriminate.
Defined.

(** X12.  The URI that [handle_ListResources] advertises is exactly the one
    [handle_ReadResource] accepts: it never answers "Unknown resource" for
    it, and always does for any other URI. *)
Theorem read_resource_uri_is_the_advertised_one
    (W : World) (uri : string) (log : list HttpRequest) :
  uri ∈ map Resource.uri handle_ListResources <->
  handle_ReadResource W uri log <>
  (Thrown (McpError InvalidRequest ("Unknown resource: " +:+ uri)), log).
Proof.
  split.
  - intros Hin. apply list_elem_of_singleton in Hin. cbn in Hin. subst uri.
    fold advertised_uri.
    rewrite handle_ReadResource_known. intros [= _ H].
    exact (app_singleton_neq _ _ H).
  - intros Hne. apply list_elem_of_singleton. cbn. fold advertised_uri.
    destruct (string_dec uri advertised_uri) as [|Hn]; [assumption|].
    exfalso. apply Hne, handle_ReadResource_unknown, Hn.
Qed.


